(** * citest.service_testing.http_agent

    A shallow embedding of [citest/service_testing/http_agent.py] and the
    properties of its response value, operation statuses, agent and
    operations.

    Python strings are byte strings ([string]); [None] in a slot that
    otherwise holds a string is [option]'s [None]; integers are [Z].
    Calls that touch the network or the logger run in a small
    state-and-exception monad over a [world] that records every request
    handed to [urllib2.urlopen] and every debug line written. *)

From Stdlib Require Import String Ascii ZArith List Bool Lia.
Import ListNotations.
Local Open Scope string_scope.
Local Open Scope Z_scope.

(** ** Python values and exceptions *)

(** The exceptions this module raises or lets through.  [HTTPError]
    carries what the handler reads from it ([e.getcode()], [e.read()]),
    [URLError] carries [str(e)].  [HTTPError] is a subclass of [URLError];
    the handlers of [_send_http_request] test for it first. *)
Inductive exception : Type :=
| TypeError (msg : string)
| IndexError (msg : string)
| AttributeError (msg : string)
| HTTPError (code : Z) (body : string)
| URLError (str_e : string)
| OtherException (name : string).

Inductive result (A : Type) : Type :=
| Ok (a : A)
| Raise (e : exception).
Arguments Ok {A} a.
Arguments Raise {A} e.

(** ** HttpResponseType *)

(** [collections.namedtuple('HttpResponseType', ['retcode', 'output', 'error'])] *)
Record HttpResponseType : Type := mkHttpResponseType {
  retcode : Z;
  output : option string;
  error : option string
}.

(** [HttpResponseType.ok] *)
Definition ok (self : HttpResponseType) : bool :=
  (retcode self >=? 200) && (retcode self <? 300).

(** ** The agent and the values passed where an agent is expected *)

(** The two status classes of the module. *)
Inductive StatusClass : Type :=
| HttpOperationStatus
| SynchronousHttpOperationStatus.

(** [HttpAgent]: [_protocol], [_address] and the private (name-mangled)
    [__status_class]. *)
Record HttpAgent : Type := mkHttpAgent {
  _protocol : string;
  _address : string;
  _HttpAgent__status_class : StatusClass
}.

(** [HttpAgent.__init__(self, address, protocol='http')] *)
Definition HttpAgent__init__ (address : string) (protocol : option string)
  : HttpAgent :=
  {| _protocol := match protocol with Some p => p | None => "http" end;
     _address := address;
     _HttpAgent__status_class := HttpOperationStatus |}.

(** What a caller can pass as [http_agent] / [agent]: [None], an
    [HttpAgent], or an object of some other class.  For the latter only
    its class name and its truth value matter to this module; it has
    neither a [post] nor a [delete] attribute. *)
Inductive pyobj : Type :=
| PyNone
| PyHttpAgent (a : HttpAgent)
| PyObject (class_name : string) (truthy : bool).

(** [isinstance(o, HttpAgent)] *)
Definition isinstance_HttpAgent (o : pyobj) : bool :=
  match o with PyHttpAgent _ => true | _ => false end.

(** Python truth value of [o]: [None] is false, an [HttpAgent] (which
    defines neither [__nonzero__] nor [__len__]) is true. *)
Definition truth (o : pyobj) : bool :=
  match o with
  | PyNone => false
  | PyHttpAgent _ => true
  | PyObject _ t => t
  end.

(** [o.__class__.__name__] *)
Definition class_name_of (o : pyobj) : string :=
  match o with
  | PyNone => "NoneType"
  | PyHttpAgent _ => "HttpAgent"
  | PyObject n _ => n
  end.

(** ** Operations and statuses *)

(** [HttpPostOperation] and [HttpDeleteOperation], the two subclasses of
    [BaseHttpOperation]. *)
Inductive OperationClass : Type :=
| HttpPostOperation
| HttpDeleteOperation.

(** A [BaseHttpOperation]: [path], [data] and [status_class] are the
    properties over its private fields; [status_class] is [None] when the
    caller passed [status_class=None] (a caller that leaves it out passes
    the default, [HttpOperationStatus]).

    Modelled from the spec: [title] and [agent], which live in the base
    class [testable_agent.AgentOperation], not part of this module; the
    base operation type provides a [title] and an [agent] accessor, which
    return what its constructor was given. *)
Record Operation : Type := mkOperation {
  op_class : OperationClass;
  title : string;
  agent : pyobj;
  path : string;
  data : option string;
  status_class : option StatusClass
}.

(** Modelled from the spec: [testable_agent.AgentOperation.bind_agent],
    which is not part of this module; the base operation type provides
    [bindAgent(agent)] and an [agent] accessor, so binding stores the
    agent that the accessor returns. *)
Definition bind_agent (self : Operation) (a : pyobj) : Operation :=
  {| op_class := op_class self; title := title self; agent := a;
     path := path self; data := data self;
     status_class := status_class self |}.

(** An instance of one of the status classes: its class, the operation
    given to the base constructor, and [_http_response]. *)
Record OperationStatus : Type := mkOperationStatus {
  status_cls : StatusClass;
  operation : Operation;
  _http_response : HttpResponseType
}.

(** [HttpOperationStatus.__init__(self, operation, http_response)], run
    for class [cls]. *)
Definition HttpOperationStatus__init__
  (cls : StatusClass) (op : Operation) (http_response : HttpResponseType)
  : OperationStatus :=
  {| status_cls := cls; operation := op; _http_response := http_response |}.

(** [HttpOperationStatus.set_http_response] *)
Definition set_http_response
  (self : OperationStatus) (http_response : HttpResponseType)
  : OperationStatus :=
  {| status_cls := status_cls self; operation := operation self;
     _http_response := http_response |}.

(** The properties of [HttpOperationStatus], inherited unchanged by
    [SynchronousHttpOperationStatus]. *)
Definition finished (self : OperationStatus) : bool := true.

Definition finished_ok (self : OperationStatus) : bool :=
  ok (_http_response self).

Definition detail (self : OperationStatus) : option string :=
  output (_http_response self).

(** The property [error] of the status (the name [error] is the field of
    the response value here). *)
Definition status_error (self : OperationStatus) : option string :=
  error (_http_response self).

(** An attribute looked up on a status: either a property one of the two
    classes of this module defines, with its value, or one left to the
    base class [testable_agent.AgentOperationStatus]. *)
Inductive attribute (A : Type) : Type :=
| Defined_here (v : A)
| Inherited_from_AgentOperationStatus.
Arguments Defined_here {A} v.
Arguments Inherited_from_AgentOperationStatus {A}.

(** [id]: only [SynchronousHttpOperationStatus] defines it, as [None]. *)
Definition id_ (self : OperationStatus) : attribute (option string) :=
  match status_cls self with
  | SynchronousHttpOperationStatus => Defined_here None
  | HttpOperationStatus => Inherited_from_AgentOperationStatus
  end.

(** [timed_out]: only [SynchronousHttpOperationStatus] defines it, as
    [False]. *)
Definition timed_out (self : OperationStatus) : attribute bool :=
  match status_cls self with
  | SynchronousHttpOperationStatus => Defined_here false
  | HttpOperationStatus => Inherited_from_AgentOperationStatus
  end.

(** ** The world: requests handed to the transport, and the debug log *)

(** A [urllib2.Request]: its URL, the method [get_method] answers, and the
    headers given to [add_header], in order. *)
Record Request : Type := mkRequest {
  url : string;
  get_method : string;
  req_headers : list (string * string)
}.

(** The lines this module writes with [logger.debug], by format string. *)
Inductive log_entry : Type :=
| LogRequest (http_type url_ : string) (data_ : option string)
| LogReply (code : Z) (body : string)
| LogExcept (str_e : string)
| LogStatus (status : OperationStatus).

Record world : Type := mkWorld {
  sent : list (Request * option string);
  debug_log : list log_entry
}.

Definition empty_world : world := {| sent := []; debug_log := [] |}.

(** Computations that read and extend the world and may raise.  The world
    reached when an exception is raised is kept, so that what happened
    before the exception stays observable. *)
Definition M (A : Type) : Type := world -> result A * world.

Definition ret {A} (a : A) : M A := fun w => (Ok a, w).

Definition raise {A} (e : exception) : M A := fun w => (Raise e, w).

Definition bind {A B} (m : M A) (k : A -> M B) : M B :=
  fun w =>
    match m w with
    | (Ok a, w') => k a w'
    | (Raise e, w') => (Raise e, w')
    end.

Declare Scope py_scope.
Delimit Scope py_scope with py.
Notation "x <- m ;; k" := (bind m (fun x => k))
  (at level 61, m at next level, right associativity) : py_scope.
Notation "m ;; k" := (bind m (fun _ => k))
  (at level 61, right associativity) : py_scope.
Local Open Scope py_scope.

(** [self.logger.debug(...)] *)
Definition logger_debug (l : log_entry) : M unit :=
  fun w => (Ok tt, {| sent := sent w; debug_log := debug_log w ++ [l] |}).

(** [if trace: self.logger.debug(...)] *)
Definition trace_debug (trace : bool) (l : log_entry) : M unit :=
  if trace then logger_debug l else ret tt.

(** [path[0]] *)
Definition getitem0 (s : string) : M ascii :=
  match s with
  | EmptyString => raise (IndexError "string index out of range")
  | String c _ => ret c
  end.

(** [path[1:]] *)
Definition slice_from1 (s : string) : string :=
  match s with
  | EmptyString => EmptyString
  | String _ rest => rest
  end.

(** What the body of the [try] in [_send_http_request] comes to: the
    response's [getcode()] and [read()], or the exception raised.
    [urllib2.urlopen] reports its failures as [URLError], replies it does
    not accept as [HTTPError]; anything else it lets through is an
    exception of another class. *)
Inductive urlopen_outcome : Type :=
| Returns (code : Z) (body : string)
| Throws (e : exception).

Section Agent.

(** The transport: how [urllib2.urlopen(req, data)], followed by reading
    the response, ends for each request. *)
Variable urlopen : Request -> option string -> urlopen_outcome.

(** [response = urllib2.urlopen(req, data)] with [getcode()] and [read()]:
    the request is recorded as handed to the transport. *)
Definition urlopen_call (req : Request) (data_ : option string)
  : M urlopen_outcome :=
  fun w => (Ok (urlopen req data_),
            {| sent := sent w ++ [(req, data_)]; debug_log := debug_log w |}).

(** [HttpAgent._send_http_request(self, path, http_type, data=None,
    headers=None, trace=True)] *)
Definition _send_http_request
  (self : HttpAgent) (path_ http_type : string) (data_ : option string)
  (headers : option (list (string * string))) (trace : bool)
  : M HttpResponseType :=
  let headers := match headers with None => [] | Some h => h end in
  c <- getitem0 path_ ;;
  let path_ := if Ascii.eqb c "/" then slice_from1 path_ else path_ in
  let url_ := _protocol self ++ "://" ++ _address self ++ "/" ++ path_ in
  let req := {| url := url_; get_method := http_type;
                req_headers := headers |} in
  trace_debug trace (LogRequest http_type url_ data_) ;;
  r <- urlopen_call req data_ ;;
  match r with
  | Returns code body =>
      trace_debug trace (LogReply code body) ;;
      ret (mkHttpResponseType code (Some body) None)
  | Throws (HTTPError code body) =>
      trace_debug trace (LogReply code body) ;;
      ret (mkHttpResponseType code None (Some body))
  | Throws (URLError str_e) =>
      trace_debug trace (LogExcept str_e) ;;
      ret (mkHttpResponseType (-1) None (Some str_e))
  | Throws e => raise e
  end.

(** [HttpAgent.post(self, path, data, content_type='application/json',
    trace=True)] *)
Definition post
  (self : HttpAgent) (path_ : string) (data_ : option string)
  (content_type : string) (trace : bool) : M HttpResponseType :=
  _send_http_request self path_ "POST" data_
    (Some [("Content-Type", content_type)]) trace.

(** [HttpAgent.delete(self, path, data, content_type='application/json',
    trace=True)] *)
Definition delete
  (self : HttpAgent) (path_ : string) (data_ : option string)
  (content_type : string) (trace : bool) : M HttpResponseType :=
  _send_http_request self path_ "DELETE" data_
    (Some [("Content-Type", content_type)]) trace.

(** [HttpAgent.get(self, path, trace=True)] *)
Definition get (self : HttpAgent) (path_ : string) (trace : bool)
  : M HttpResponseType :=
  _send_http_request self path_ "GET" None None trace.

(** [HttpAgent._new_invoke_status(self, operation, http_response)] *)
Definition _new_invoke_status
  (self : HttpAgent) (op : Operation) (http_response : HttpResponseType)
  : OperationStatus :=
  HttpOperationStatus__init__ (_HttpAgent__status_class self) op http_response.

(** [BaseHttpOperation.__init__(self, title, path, data, http_agent=None,
    status_class=HttpOperationStatus)], run for class [cls].  The base
    constructor is called with [title] and [http_agent] before the type
    check; an exception leaves no operation behind. *)
Definition BaseHttpOperation__init__
  (cls : OperationClass) (title_ path_ : string) (data_ : option string)
  (http_agent : pyobj) (status_class_ : option StatusClass)
  : result Operation :=
  if truth http_agent && negb (isinstance_HttpAgent http_agent) then
    Raise (TypeError ("agent no HttpAgent: " ++ class_name_of http_agent))
  else
    Ok {| op_class := cls; title := title_; agent := http_agent;
          path := path_; data := data_; status_class := status_class_ |}.

(** [HttpAgent.new_post_operation(self, title, path, data,
    status_class=None)] *)
Definition new_post_operation
  (self : HttpAgent) (title_ path_ : string) (data_ : option string)
  (status_class_ : option StatusClass) : result Operation :=
  BaseHttpOperation__init__ HttpPostOperation title_ path_ data_
    (PyHttpAgent self) status_class_.

(** [HttpAgent.new_delete_operation(self, title, path, data,
    status_class=None)] *)
Definition new_delete_operation
  (self : HttpAgent) (title_ path_ : string) (data_ : option string)
  (status_class_ : option StatusClass) : result Operation :=
  BaseHttpOperation__init__ HttpDeleteOperation title_ path_ data_
    (PyHttpAgent self) status_class_.

(** [HttpPostOperation._do_invoke] and [HttpDeleteOperation._do_invoke],
    by the class of [self].  The verb and the status factory are looked up
    on the [agent] argument: [None] and objects of other classes have
    neither. *)
Definition _do_invoke (self : Operation) (agent_ : pyobj) (trace : bool)
  : M OperationStatus :=
  let verb := match op_class self with
              | HttpPostOperation => "post"
              | HttpDeleteOperation => "delete"
              end in
  match agent_ with
  | PyHttpAgent a =>
      http_response <-
        match op_class self with
        | HttpPostOperation =>
            post a (path self) (data self) "application/json" trace
        | HttpDeleteOperation =>
            delete a (path self) (data self) "application/json" trace
        end ;;
      ret (_new_invoke_status a self http_response)
  | _ =>
      raise (AttributeError ("'" ++ class_name_of agent_
                             ++ "' object has no attribute '" ++ verb ++ "'"))
  end.

(** [BaseHttpOperation.execute(self, agent=None, trace=True)].  The
    operation is returned with the status, since [bind_agent] may have
    changed it. *)
Definition execute (self : Operation) (agent_ : pyobj) (trace : bool)
  : M (Operation * OperationStatus) :=
  self <-
    (if negb (truth (agent self)) then
       if negb (isinstance_HttpAgent agent_) then
         raise (TypeError ("agent no HttpAgent: " ++ class_name_of agent_))
       else ret (bind_agent self agent_)
     else ret self) ;;
  status <- _do_invoke self agent_ trace ;;
  match agent_ with
  | PyHttpAgent _ => trace_debug trace (LogStatus status)
  | _ =>
      if trace then
        raise (AttributeError ("'" ++ class_name_of agent_
                               ++ "' object has no attribute 'logger'"))
      else ret tt
  end ;;
  ret (self, status).

End Agent.

(** ** Vocabulary of the properties *)

(** A slot of the response is populated when it holds a string rather
    than [None]. *)
Definition populated (slot : option string) : bool :=
  match slot with Some _ => true | None => false end.

(** The invariant of a response value: exactly one of [output] and
    [error] is populated, and a [retcode] of -1 goes with a populated
    [error] and an empty [output]. *)
Definition response_invariant (r : HttpResponseType) : Prop :=
  xorb (populated (output r)) (populated (error r)) = true /\
  (retcode r = -1 -> populated (error r) = true /\ output r = None).

(** The path as it is joined into the URL: one leading slash removed if
    there is one. *)
Definition strip_one_leading_slash (p : string) : string :=
  match p with
  | String "/"%char rest => rest
  | _ => p
  end.

(** [{protocol}://{address}/{path}] over the stripped path. *)
Definition request_url (a : HttpAgent) (p : string) : string :=
  _protocol a ++ "://" ++ _address a ++ "/" ++ strip_one_leading_slash p.

(** The exchanges the routine has a branch for: a failure to get a reply
    that [urllib2] reports as a [URLError], with its description, or a
    reply with its status code and body. *)
Inductive exchange : Type :=
| ReportedFailure (description : string)
| HttpReply (code : Z) (body : string).

(** The exchange behind an outcome of [urllib2.urlopen]: a returned
    response and an [HTTPError] are both replies of the server, a plain
    [URLError] is a reported failure to get one.  An exception of any
    other class (a socket timeout while the reply is read, a bad status
    line) is no such exchange, although it is a failure of the transport
    too: the routine has no handler for it. *)
Definition exchange_of (o : urlopen_outcome) : option exchange :=
  match o with
  | Returns code body => Some (HttpReply code body)
  | Throws (HTTPError code body) => Some (HttpReply code body)
  | Throws (URLError str_e) => Some (ReportedFailure str_e)
  | Throws _ => None
  end.

(** The classification of the specification, step 6 of the transmission
    algorithm. *)
Definition classify (x : exchange) : HttpResponseType :=
  match x with
  | ReportedFailure description =>
      mkHttpResponseType (-1) None (Some description)
  | HttpReply code body =>
      if (200 <=? code) && (code <? 300)
      then mkHttpResponseType code (Some body) None
      else mkHttpResponseType code None (Some body)
  end.

(** What [urllib2] promises about [urlopen] over HTTP: its error
    processor returns a reply whose code is 2xx and raises every other
    reply as an [HTTPError]. *)
Definition urllib2_contract
  (urlopen : Request -> option string -> urlopen_outcome) : Prop :=
  forall req d,
    match urlopen req d with
    | Returns code _ => 200 <= code < 300
    | Throws (HTTPError code _) => ~ (200 <= code < 300)
    | Throws _ => True
    end.

(** The URLs of the requests a computation hands to the transport when it
    starts in world [w], beyond those already in [w]. *)
Definition new_requests {A} (m : M A) (w : world)
  : list (Request * option string) :=
  skipn (length (sent w)) (sent (snd (m w))).

(** ** A mock service for concrete runs *)

(** The agent of the end-to-end scenarios. *)
Definition svc : HttpAgent :=
  HttpAgent__init__ "svc.example.com:8080" None.

(** A second agent, for another host. *)
Definition other_svc : HttpAgent :=
  HttpAgent__init__ "other.example.com" None.

(** A server behind [svc]: [items] exists, [other.example.com] cannot be
    reached, every other path of [svc] is unknown. *)
Definition mock_urlopen (req : Request) (d : option string)
  : urlopen_outcome :=
  if String.eqb (url req) "http://svc.example.com:8080/items" then
    Returns 201 "{id:7}"
  else if String.prefix "http://svc.example.com:8080/" (url req) then
    Throws (HTTPError 404 "not found")
  else
    Throws (URLError "<urlopen error [Errno 111] Connection refused>").

(** ** The report of a response value *)

(** Python truth value of a slot that holds a string or [None]: false for
    [None] and for the empty string. *)
Definition truth_of_slot (slot : option string) : bool :=
  match slot with
  | Some (String _ _) => true
  | _ => false
  end.

Section Scribe.

(** The report builder handed in as [scribe]: the parts it builds, and its
    [build_part] (used here on the [retcode]) and [build_json_part] (used
    here on a slot of the response). *)
Variable Part : Type.
Variable build_part : string -> Z -> Part.
Variable build_json_part : string -> option string -> Part.

(** [HttpResponseType._make_scribe_parts(self, scribe)] *)
Definition HttpResponseType_make_scribe_parts (self : HttpResponseType)
  : list Part :=
  let label := if truth_of_slot (error self) then "Response Error"
               else "Response Data" in
  let data_ := if truth_of_slot (error self) then error self
               else output self in
  [build_part "HTTP Code" (retcode self); build_json_part label data_].

End Scribe.
Arguments HttpResponseType_make_scribe_parts {Part} _ _ _.

(** ** Further vocabulary *)

(** The request [_send_http_request] builds for a non-empty path. *)
Definition expected_request
  (a : HttpAgent) (p http_type : string)
  (headers : option (list (string * string))) : Request :=
  {| url := request_url a p; get_method := http_type;
     req_headers := match headers with None => [] | Some h => h end |}.

(** The exceptions of the transport that [_send_http_request] turns into a
    response value. *)
Definition caught (e : exception) : bool :=
  match e with
  | HTTPError _ _ | URLError _ => true
  | _ => false
  end.

(** The debug line that follows the exchange when tracing: the reply line
    for a response and for an [HTTPError], the exception line for a
    [URLError], none for an exception that is let through. *)
Definition reply_lines (o : urlopen_outcome) : list log_entry :=
  match o with
  | Returns code body => [LogReply code body]
  | Throws (HTTPError code body) => [LogReply code body]
  | Throws (URLError str_e) => [LogExcept str_e]
  | Throws _ => []
  end.

(** The HTTP method an operation of class [cls] uses. *)
Definition method_of (cls : OperationClass) : string :=
  match cls with
  | HttpPostOperation => "POST"
  | HttpDeleteOperation => "DELETE"
  end.

(** The verb an operation calls on the agent it is given. *)
Definition verb_call
  (urlopen : Request -> option string -> urlopen_outcome)
  (op : Operation) (a : HttpAgent) (trace : bool) : M HttpResponseType :=
  match op_class op with
  | HttpPostOperation =>
      post urlopen a (path op) (data op) "application/json" trace
  | HttpDeleteOperation =>
      delete urlopen a (path op) (data op) "application/json" trace
  end.

(** The operation as [execute] leaves it when given agent [o]. *)
Definition bound_by (op : Operation) (o : pyobj) : Operation :=
  if truth (agent op) then op else bind_agent op o.

(** A report builder that keeps what it is given: the label and the
    value of each part. *)
Definition recorded_part : Type := (string * (Z + option string))%type.

Definition record_part (label : string) (v : Z) : recorded_part :=
  (label, inl v).

Definition record_json_part (label : string) (v : option string)
  : recorded_part :=
  (label, inr v).

(** A transport on which every exchange runs into the socket timeout, an
    exception that is not a [URLError]. *)
Definition timeout_urlopen (req : Request) (d : option string)
  : urlopen_outcome :=
  Throws (OtherException "socket.timeout").

(** A server that answers every request with an error reply and no
    body. *)
Definition gone_urlopen (req : Request) (d : option string)
  : urlopen_outcome :=
  Throws (HTTPError 410 "").

(** ** Basic facts *)

Lemma strip_code_eq (c : ascii) (rest : string) :
  (if Ascii.eqb c "/" then slice_from1 (String c rest) else String c rest)
  = strip_one_leading_slash (String c rest).
Proof.
  destruct (Ascii.eqb_spec c "/"%char) as [->|Hne]; [reflexivity|].
  destruct c as [[] [] [] [] [] [] [] []]; try reflexivity.
  now elim Hne.
Qed.

Lemma skipn_length_app {A} (l l' : list A) :
  skipn (length l) (l ++ l') = l'.
Proof. induction l; simpl; auto. Qed.

Lemma mock_urlopen_contract : urllib2_contract mock_urlopen.
Proof.
  intros req d. unfold mock_urlopen.
  destruct (String.eqb _ _); [lia|].
  destruct (String.prefix _ _); [lia|exact I].
Qed.

Ltac run_py :=
  unfold post, delete, get, _send_http_request, bind, getitem0, trace_debug,
    urlopen_call, logger_debug, ret, raise; simpl.

(** The transmission routine on a non-empty path, step by step: one
    request with the joined URL goes to the transport, and the outcome
    decides the result. *)
Lemma send_nonempty urlopen self c rest http_type d headers trace w :
  let req := {| url := request_url self (String c rest);
                get_method := http_type;
                req_headers := match headers with
                               | None => [] | Some h => h end |} in
  sent (snd (_send_http_request urlopen self (String c rest) http_type d
               headers trace w)) = (sent w ++ [(req, d)])%list
  /\ fst (_send_http_request urlopen self (String c rest) http_type d
            headers trace w)
     = match urlopen req d with
       | Returns code body => Ok (mkHttpResponseType code (Some body) None)
       | Throws (HTTPError code body) =>
           Ok (mkHttpResponseType code None (Some body))
       | Throws (URLError str_e) =>
           Ok (mkHttpResponseType (-1) None (Some str_e))
       | Throws e => Raise e
       end.
Proof.
  unfold request_url. rewrite <- strip_code_eq.
  run_py.
  destruct trace; simpl;
    (destruct (urlopen _ d) as [code body|[]]; simpl; split; reflexivity).
Qed.

(** ** Response value and statuses *)

(** C4: for every response value [r], [ok()] is true exactly when
    [200 <= retcode < 300], and the [finished_ok] of a status holding [r]
    (built over it, or given it by [set_http_response]) is [ok()] of [r];
    so a [retcode] of -1, or any outside 2xx, gives [finished_ok] false. *)
Theorem ok_iff_2xx_and_finished_ok
  (r : HttpResponseType) (cls : StatusClass) (op : Operation)
  (st0 : OperationStatus) :
  (ok r = true <-> 200 <= retcode r < 300) /\
  finished_ok (HttpOperationStatus__init__ cls op r) = ok r /\
  finished_ok (set_http_response st0 r) = ok r /\
  (retcode r = -1 ->
   finished_ok (HttpOperationStatus__init__ cls op r) = false) /\
  (~ (200 <= retcode r < 300) ->
   finished_ok (HttpOperationStatus__init__ cls op r) = false).
Proof.
  assert (Hok : ok r = true <-> 200 <= retcode r < 300).
  { unfold ok. rewrite andb_true_iff, Z.geb_le, Z.ltb_lt. lia. }
  split; [exact Hok|].
  split; [reflexivity|]. split; [reflexivity|]. split.
  - intros Hm. unfold finished_ok; simpl.
    apply not_true_is_false. intros E. apply Hok in E. lia.
  - intros Hn. unfold finished_ok; simpl.
    apply not_true_is_false. intros E. apply Hok in E. contradiction.
Qed.

Lemma ok_iff_2xx_and_finished_ok_witness :
  finished_ok
    (HttpOperationStatus__init__ HttpOperationStatus
       (mkOperation HttpPostOperation "t" PyNone "/items" None None)
       (mkHttpResponseType (-1) None (Some "refused"))) = false.
Proof.
  destruct (ok_iff_2xx_and_finished_ok
              (mkHttpResponseType (-1) None (Some "refused"))
              HttpOperationStatus
              (mkOperation HttpPostOperation "t" PyNone "/items" None None)
              (mkOperationStatus HttpOperationStatus
                 (mkOperation HttpPostOperation "t" PyNone "/items" None None)
                 (mkHttpResponseType 200 (Some "") None)))
    as (_ & _ & _ & Hminus1 & _).
  apply Hminus1. reflexivity.
Defined.

(** C7: for every status of either class over any response value [r],
    [finished] is true, [detail] is the [output] of [r] and [error] is the
    [error] of [r]; the same holds for the response a status holds after
    [set_http_response]. *)
Theorem status_reports_response
  (cls : StatusClass) (op : Operation) (r : HttpResponseType)
  (st0 : OperationStatus) :
  let st := HttpOperationStatus__init__ cls op r in
  finished st = true /\ detail st = output r /\ status_error st = error r /\
  finished (set_http_response st0 r) = true /\
  detail (set_http_response st0 r) = output r /\
  status_error (set_http_response st0 r) = error r.
Proof. repeat split. Qed.

(** C8: for every status of class [SynchronousHttpOperationStatus],
    whatever response it holds, [id] is [None] and [timed_out] is
    [False]. *)
Theorem synchronous_status_id_and_timed_out (st : OperationStatus) :
  status_cls st = SynchronousHttpOperationStatus ->
  id_ st = Defined_here None /\ timed_out st = Defined_here false.
Proof.
  intros Hcls. unfold id_, timed_out. rewrite Hcls. split; reflexivity.
Qed.

Lemma synchronous_status_id_and_timed_out_witness :
  let st := HttpOperationStatus__init__ SynchronousHttpOperationStatus
              (mkOperation HttpDeleteOperation "cleanup" (PyHttpAgent svc)
                 "/items/7" (Some "") None)
              (mkHttpResponseType 404 None (Some "not found")) in
  id_ st = Defined_here None /\ timed_out st = Defined_here false.
Proof.
  intros st. apply (synchronous_status_id_and_timed_out st). reflexivity.
Defined.

(** ** The transmission routine *)

(** C10: on the empty path the transmission routine and each of [post],
    [delete] and [get] raise [IndexError] at [path[0]], and the world is
    as before: no request was built or handed to the transport, and
    nothing was logged. *)
Theorem empty_path_raises_IndexError
  (urlopen : Request -> option string -> urlopen_outcome)
  (self : HttpAgent) (http_type content_type : string)
  (d : option string) (headers : option (list (string * string)))
  (trace : bool) (w : world) :
  let raised := (Raise (IndexError "string index out of range"), w) in
  _send_http_request urlopen self "" http_type d headers trace w = raised /\
  post urlopen self "" d content_type trace w = raised /\
  delete urlopen self "" d content_type trace w = raised /\
  get urlopen self "" trace w = raised.
Proof. repeat split. Qed.

(** C6: for every agent and every non-empty path, the one request handed
    to the transport has the URL [{protocol}://{address}/{path}] with one
    leading slash stripped from the path if present; so a path without a
    leading slash and the same path behind one slash give the same
    request. *)
Theorem request_url_strips_one_slash
  (urlopen : Request -> option string -> urlopen_outcome)
  (self : HttpAgent) (p http_type : string) (d : option string)
  (headers : option (list (string * string))) (trace : bool) (w : world) :
  p <> "" ->
  map (fun s => url (fst s))
    (new_requests (_send_http_request urlopen self p http_type d headers trace)
       w)
  = [_protocol self ++ "://" ++ _address self ++ "/"
     ++ strip_one_leading_slash p]
  /\ (strip_one_leading_slash p = p ->
      new_requests
        (_send_http_request urlopen self ("/" ++ p) http_type d headers trace)
        w
      = new_requests
          (_send_http_request urlopen self p http_type d headers trace) w).
Proof.
  intros Hne. destruct p as [|c rest]; [congruence|].
  unfold new_requests.
  destruct (send_nonempty urlopen self c rest http_type d headers trace w)
    as [Hs _].
  rewrite Hs, skipn_length_app. split; [reflexivity|].
  intros Hstrip.
  change ("/" ++ String c rest) with (String "/" (String c rest)).
  destruct (send_nonempty urlopen self "/" (String c rest) http_type d
              headers trace w) as [Hs' _].
  rewrite Hs', skipn_length_app.
  unfold request_url. rewrite Hstrip. reflexivity.
Qed.

Lemma request_url_strips_one_slash_witness :
  map (fun s => url (fst s))
    (new_requests
       (_send_http_request mock_urlopen svc "widgets" "GET" None None true)
       empty_world)
  = ["http://svc.example.com:8080/widgets"]
  /\ new_requests
       (_send_http_request mock_urlopen svc "/widgets" "GET" None None true)
       empty_world
     = new_requests
         (_send_http_request mock_urlopen svc "widgets" "GET" None None true)
         empty_world.
Proof.
  destruct (request_url_strips_one_slash mock_urlopen svc "widgets" "GET"
              None None true empty_world) as [Hurl Hsame].
  - discriminate.
  - split; [exact Hurl|apply Hsame; reflexivity].
Defined.

(** End-to-end scenarios A, B and C against the mock service. *)
Example scenario_A_created :
  fst (post mock_urlopen svc "/items" (Some "{a:1}") "application/json" true
         empty_world)
  = Ok (mkHttpResponseType 201 (Some "{id:7}") None).
Proof. reflexivity. Qed.

Example scenario_B_not_found :
  fst (post mock_urlopen svc "/nothing" (Some "{a:1}") "application/json" true
         empty_world)
  = Ok (mkHttpResponseType 404 None (Some "not found")).
Proof. reflexivity. Qed.

Example scenario_C_refused :
  fst (get mock_urlopen other_svc "/items" true empty_world)
  = Ok (mkHttpResponseType (-1) None
          (Some "<urlopen error [Errno 111] Connection refused>")).
Proof. reflexivity. Qed.

(** C2, as stated, fails: a failure of the transport that [urllib2] does
    not report as a [URLError] (here the socket timeout while the reply
    is read) meets neither handler.  The call, over a transport that
    keeps [urllib2]'s contract, raises it to the caller and returns no
    response value, so no code -1. *)
Lemma uncaught_transport_failure_is_raised :
  urllib2_contract timeout_urlopen
  /\ fst (_send_http_request timeout_urlopen svc "/items" "GET" None None
            true empty_world)
     = Raise (OtherException "socket.timeout")
  /\ ~ (exists r,
          fst (_send_http_request timeout_urlopen svc "/items" "GET" None
                 None true empty_world) = Ok r).
Proof.
  split; [intros req d; exact I|]. split; [reflexivity|].
  intros [r Hr]. discriminate Hr.
Qed.

(** C2, amended: for every call of [_send_http_request] that reaches the
    transport (a non-empty path, over a transport that keeps [urllib2]'s
    contract), exactly one request is sent, and: a failure that the
    transport reports as a [URLError] gives code -1, empty output and the
    stringified exception as error; a reply outside 2xx gives its code,
    its body as error and empty output; a 2xx reply gives its code, its
    body as output and empty error; in each of these cases the call
    returns a response value and raises nothing.  An exception of the
    transport that is neither an [HTTPError] nor a [URLError] is raised
    to the caller as it is. *)
Theorem send_http_request_classifies
  (urlopen : Request -> option string -> urlopen_outcome)
  (self : HttpAgent) (p http_type : string) (d : option string)
  (headers : option (list (string * string))) (trace : bool) (w : world) :
  urllib2_contract urlopen ->
  p <> "" ->
  exists req,
    new_requests (_send_http_request urlopen self p http_type d headers trace)
      w = [(req, d)]
    /\ url req = request_url self p
    /\ (forall x, exchange_of (urlopen req d) = Some x ->
          fst (_send_http_request urlopen self p http_type d headers trace w)
          = Ok (classify x))
    /\ (forall e, urlopen req d = Throws e -> caught e = false ->
          fst (_send_http_request urlopen self p http_type d headers trace w)
          = Raise e).
Proof.
  intros Hlib Hne. destruct p as [|c rest]; [congruence|].
  destruct (send_nonempty urlopen self c rest http_type d headers trace w)
    as [Hs Hf].
  eexists. unfold new_requests. rewrite Hs, skipn_length_app.
  split; [reflexivity|]. split; [reflexivity|]. split.
  - intros x Hx. rewrite Hf. clear Hs Hf.
    match goal with |- context [urlopen ?r d] =>
      specialize (Hlib r d); destruct (urlopen r d) as [code body|e]
    end.
    + inversion Hx; subst; simpl.
      replace ((200 <=? code) && (code <? 300)) with true; [reflexivity|].
      symmetry. apply andb_true_iff. rewrite Z.leb_le, Z.ltb_lt. lia.
    + destruct e; simpl in Hx; inversion Hx; subst; simpl; [|reflexivity].
      replace ((200 <=? code) && (code <? 300)) with false; [reflexivity|].
      symmetry. apply not_true_is_false. intros E.
      apply andb_true_iff in E. rewrite Z.leb_le, Z.ltb_lt in E. lia.
  - intros e He Hc. rewrite Hf, He.
    destruct e; simpl in Hc; try discriminate Hc; reflexivity.
Qed.

Lemma send_http_request_classifies_witness :
  exists req,
    new_requests
      (_send_http_request mock_urlopen svc "/nothing" "DELETE" (Some "")
         None true) empty_world = [(req, Some "")]
    /\ url req = request_url svc "/nothing"
    /\ (forall x, exchange_of (mock_urlopen req (Some "")) = Some x ->
          fst (_send_http_request mock_urlopen svc "/nothing" "DELETE"
                 (Some "") None true empty_world)
          = Ok (classify x))
    /\ (forall e, mock_urlopen req (Some "") = Throws e ->
          caught e = false ->
          fst (_send_http_request mock_urlopen svc "/nothing" "DELETE"
                 (Some "") None true empty_world)
          = Raise e).
Proof.
  apply (send_http_request_classifies mock_urlopen svc "/nothing" "DELETE"
           (Some "") None true empty_world).
  - exact mock_urlopen_contract.
  - discriminate.
Defined.

(** C5: every response value the transmission routine constructs (over a
    transport that keeps [urllib2]'s contract) satisfies the invariant:
    exactly one of [output] and [error] is populated, and a [retcode] of
    -1 goes with a populated [error] and an empty [output]. *)
Theorem transmission_response_invariant
  (urlopen : Request -> option string -> urlopen_outcome)
  (self : HttpAgent) (p http_type : string) (d : option string)
  (headers : option (list (string * string))) (trace : bool) (w : world)
  (r : HttpResponseType) :
  urllib2_contract urlopen ->
  fst (_send_http_request urlopen self p http_type d headers trace w) = Ok r ->
  response_invariant r.
Proof.
  intros Hlib Hr. destruct p as [|c rest]; [discriminate Hr|].
  destruct (send_nonempty urlopen self c rest http_type d headers trace w)
    as [_ Hf].
  rewrite Hf in Hr. clear Hf.
  match type of Hr with context [urlopen ?q d] =>
    specialize (Hlib q d); destruct (urlopen q d) as [code body|e]
  end.
  - inversion Hr; subst. split; [reflexivity|]. simpl. lia.
  - destruct e; inversion Hr; subst; split; simpl; auto.
Qed.

Lemma transmission_response_invariant_witness :
  response_invariant
    (mkHttpResponseType (-1) None
       (Some "<urlopen error [Errno 111] Connection refused>")).
Proof.
  apply (transmission_response_invariant mock_urlopen other_svc "/items"
           "GET" None None true empty_world).
  - exact mock_urlopen_contract.
  - reflexivity.
Defined.

(** ** Operations *)

(** The status factory takes the class from the agent; the operation it
    is given, and with it the operation's own [status_class], plays no
    part in the choice. *)
Lemma new_invoke_status_class (a : HttpAgent) (op : Operation)
  (r : HttpResponseType) :
  status_cls (_new_invoke_status a op r) = _HttpAgent__status_class a.
Proof. reflexivity. Qed.

(** Both factories return an operation bound to the creating agent that
    keeps the [status_class] it was given. *)
Lemma factories_bind_creating_agent (self : HttpAgent) (t p : string)
  (d : option string) (sc : option StatusClass) :
  new_post_operation self t p d sc
  = Ok (mkOperation HttpPostOperation t (PyHttpAgent self) p d sc)
  /\ new_delete_operation self t p d sc
     = Ok (mkOperation HttpDeleteOperation t (PyHttpAgent self) p d sc).
Proof. split; reflexivity. Qed.

(** An operation that is already bound hands the [agent] argument, not
    its bound agent, to [_do_invoke]: with another agent as argument the
    request goes to that agent's address. *)
Lemma execute_bound_invokes_argument
  (urlopen : Request -> option string -> urlopen_outcome)
  (op : Operation) (b : HttpAgent) (trace : bool) (w : world) :
  truth (agent op) = true ->
  path op <> "" ->
  map (fun s => url (fst s))
    (new_requests (execute urlopen op (PyHttpAgent b) trace) w)
  = [request_url b (path op)].
Proof.
  intros Hbound Hne. destruct op as [cls t a p d sc]; simpl in *.
  destruct p as [|c rest]; [congruence|].
  unfold new_requests, request_url. rewrite <- strip_code_eq.
  unfold execute, _do_invoke, bind at 1. simpl. rewrite Hbound. simpl.
  destruct cls, trace; run_py;
    (destruct (urlopen _ d) as [code body|[]]; simpl;
     rewrite skipn_length_app; reflexivity).
Qed.

(** Without an [agent] argument a bound operation raises
    [AttributeError] and sends nothing. *)
Lemma execute_bound_without_argument
  (urlopen : Request -> option string -> urlopen_outcome)
  (op : Operation) (trace : bool) (w : world) :
  truth (agent op) = true ->
  exists msg,
    execute urlopen op PyNone trace w = (Raise (AttributeError msg), w).
Proof.
  intros Hbound. unfold execute, _do_invoke, bind, raise, ret.
  rewrite Hbound. simpl. eexists. reflexivity.
Qed.

(** C1, evaluated on an operation bound to [svc]: executed with
    [other_svc] as argument, the request goes to [other_svc] and the
    status reports its answer; executed without an argument, the call
    raises [AttributeError] and nothing is sent.  In neither run is the
    request issued through the bound agent. *)
Theorem execute_on_bound_operation_uses_argument :
  let op := mkOperation HttpPostOperation "create" (PyHttpAgent svc)
              "/items" (Some "{a:1}") (Some HttpOperationStatus) in
  new_post_operation svc "create" "/items" (Some "{a:1}")
    (Some HttpOperationStatus) = Ok op
  /\ map (fun s => url (fst s))
       (new_requests (execute mock_urlopen op (PyHttpAgent other_svc) true)
          empty_world)
     = ["http://other.example.com/items"]
  /\ fst (execute mock_urlopen op (PyHttpAgent other_svc) true empty_world)
     = Ok (op, mkOperationStatus HttpOperationStatus op
                 (mkHttpResponseType (-1) None
                    (Some "<urlopen error [Errno 111] Connection refused>")))
  /\ fst (post mock_urlopen svc "/items" (Some "{a:1}") "application/json"
            true empty_world)
     = Ok (mkHttpResponseType 201 (Some "{id:7}") None)
  /\ execute mock_urlopen op PyNone true empty_world
     = (Raise (AttributeError "'NoneType' object has no attribute 'post'"),
        empty_world).
Proof. repeat split. Qed.

(** C3, evaluated on [svc]: the operations of both factories are bound to
    [svc] and keep the given [SynchronousHttpOperationStatus], but the
    status their execution returns is of the agent's class
    [HttpOperationStatus], whose [id] and [timed_out] are not the
    synchronous ones. *)
Theorem factory_status_class_is_not_used :
  let given := Some SynchronousHttpOperationStatus in
  let op_post := mkOperation HttpPostOperation "create" (PyHttpAgent svc)
                   "/items" (Some "{a:1}") given in
  let op_delete := mkOperation HttpDeleteOperation "cleanup"
                     (PyHttpAgent svc) "/items/7" (Some "") given in
  new_post_operation svc "create" "/items" (Some "{a:1}") given = Ok op_post
  /\ new_delete_operation svc "cleanup" "/items/7" (Some "") given
     = Ok op_delete
  /\ fst (execute mock_urlopen op_post (PyHttpAgent svc) true empty_world)
     = Ok (op_post,
           mkOperationStatus HttpOperationStatus op_post
             (mkHttpResponseType 201 (Some "{id:7}") None))
  /\ fst (execute mock_urlopen op_delete (PyHttpAgent svc) true empty_world)
     = Ok (op_delete,
           mkOperationStatus HttpOperationStatus op_delete
             (mkHttpResponseType 404 None (Some "not found")))
  /\ id_ (mkOperationStatus HttpOperationStatus op_post
            (mkHttpResponseType 201 (Some "{id:7}") None))
     = Inherited_from_AgentOperationStatus.
Proof. repeat split. Qed.

(** The status [_do_invoke] returns is built by the agent it was given. *)
Lemma do_invoke_status_class
  (urlopen : Request -> option string -> urlopen_outcome)
  (op : Operation) (a : HttpAgent) (trace : bool) (w : world)
  (st : OperationStatus) :
  fst (_do_invoke urlopen op (PyHttpAgent a) trace w) = Ok st ->
  status_cls st = _HttpAgent__status_class a.
Proof.
  unfold _do_invoke, bind, ret.
  destruct (op_class op);
    match goal with |- context [match ?m with _ => _ end] =>
      destruct m as [[r|e] w']
    end; simpl; intros H; inversion H; reflexivity.
Qed.

(** Whatever class a factory was given, the status an execution with the
    creating agent returns is of the agent's class. *)
Lemma executed_status_is_of_agent_class
  (urlopen : Request -> option string -> urlopen_outcome)
  (op : Operation) (a : HttpAgent) (trace : bool) (w : world)
  (op' : Operation) (st : OperationStatus) :
  fst (execute urlopen op (PyHttpAgent a) trace w) = Ok (op', st) ->
  status_cls st = _HttpAgent__status_class a.
Proof.
  unfold execute. simpl.
  assert (Hstep : forall self,
    fst (bind (_do_invoke urlopen self (PyHttpAgent a) trace)
           (fun status =>
              bind (trace_debug trace (LogStatus status))
                (fun _ => ret (self, status))) w) = Ok (op', st) ->
    status_cls st = _HttpAgent__status_class a).
  { intros self. unfold bind at 1.
    destruct (_do_invoke urlopen self (PyHttpAgent a) trace w)
      as [[st'|e] w'] eqn:E; [|discriminate].
    assert (Hcls : status_cls st' = _HttpAgent__status_class a)
      by (apply (do_invoke_status_class urlopen self a trace w);
          rewrite E; reflexivity).
    destruct trace; simpl; intros H; inversion H; subst; exact Hcls. }
  destruct (negb (truth (agent op))); apply Hstep.
Qed.

(** C9, as stated, fails at construction: an object that is not an
    [HttpAgent] and whose truth value is false (here the empty [str])
    passes the check of the constructor, which raises nothing. *)
Lemma falsy_non_agent_passes_constructor :
  isinstance_HttpAgent (PyObject "str" false) = false
  /\ BaseHttpOperation__init__ HttpPostOperation "create" "/items"
       (Some "{a:1}") (PyObject "str" false) (Some HttpOperationStatus)
     = Ok (mkOperation HttpPostOperation "create" (PyObject "str" false)
             "/items" (Some "{a:1}") (Some HttpOperationStatus))
  /\ ~ (exists msg,
          BaseHttpOperation__init__ HttpPostOperation "create" "/items"
            (Some "{a:1}") (PyObject "str" false) (Some HttpOperationStatus)
          = Raise (TypeError msg)).
Proof.
  split; [reflexivity|]. split; [reflexivity|].
  intros [msg Hmsg]. discriminate Hmsg.
Qed.

(** C9, amended: for every value [o] that is not an [HttpAgent],
    constructing an operation with [o] as agent raises [TypeError] when
    the truth value of [o] is true, and otherwise returns an operation
    that counts as unbound; and executing an unbound operation with [o]
    (or no agent, [None]) as argument raises [TypeError] and leaves the
    world as it was: no request reached the transport. *)
Theorem api_misuse_raises_TypeError
  (urlopen : Request -> option string -> urlopen_outcome)
  (cls : OperationClass) (t p : string) (d : option string)
  (sc : option StatusClass) (o : pyobj) (op : Operation) (trace : bool)
  (w : world) :
  isinstance_HttpAgent o = false ->
  (truth o = true ->
   BaseHttpOperation__init__ cls t p d o sc
   = Raise (TypeError ("agent no HttpAgent: " ++ class_name_of o)))
  /\ (truth o = false ->
      exists unbound,
        BaseHttpOperation__init__ cls t p d o sc = Ok unbound
        /\ truth (agent unbound) = false)
  /\ (truth (agent op) = false ->
      execute urlopen op o trace w
      = (Raise (TypeError ("agent no HttpAgent: " ++ class_name_of o)), w)).
Proof.
  intros Hnot. unfold BaseHttpOperation__init__, execute.
  rewrite Hnot. simpl. split; [|split].
  - intros Ht. rewrite Ht. reflexivity.
  - intros Hf. rewrite Hf. simpl. eexists. split; [reflexivity|exact Hf].
  - intros Hunbound. unfold bind, raise. rewrite Hunbound. reflexivity.
Qed.

Lemma api_misuse_raises_TypeError_witness :
  BaseHttpOperation__init__ HttpDeleteOperation "cleanup" "/items/7"
    (Some "") (PyObject "dict" true) (Some HttpOperationStatus)
  = Raise (TypeError "agent no HttpAgent: dict")
  /\ execute mock_urlopen
       (mkOperation HttpDeleteOperation "cleanup" PyNone "/items/7"
          (Some "") (Some HttpOperationStatus))
       (PyObject "dict" true) true empty_world
     = (Raise (TypeError "agent no HttpAgent: dict"), empty_world).
Proof.
  destruct (api_misuse_raises_TypeError mock_urlopen HttpDeleteOperation
              "cleanup" "/items/7" (Some "") (Some HttpOperationStatus)
              (PyObject "dict" true)
              (mkOperation HttpDeleteOperation "cleanup" PyNone "/items/7"
                 (Some "") (Some HttpOperationStatus))
              true empty_world) as (Hctor & _ & Hexec).
  - reflexivity.
  - split; [apply Hctor|apply Hexec]; reflexivity.
Defined.

(** ** Runs of the transmission routine and of [execute], in full *)

Lemma append_cancel_l (s x y : string) : s ++ x = s ++ y -> x = y.
Proof.
  induction s as [|c s IH]; simpl; intros H; [exact H|].
  inversion H. auto.
Qed.

(** The whole run on a non-empty path: the result, the request handed to
    the transport and the debug lines. *)
Lemma send_run urlopen self c rest http_type d headers trace w :
  let req := expected_request self (String c rest) http_type headers in
  _send_http_request urlopen self (String c rest) http_type d headers trace w
  = (match urlopen req d with
     | Returns code body => Ok (mkHttpResponseType code (Some body) None)
     | Throws (HTTPError code body) =>
         Ok (mkHttpResponseType code None (Some body))
     | Throws (URLError str_e) =>
         Ok (mkHttpResponseType (-1) None (Some str_e))
     | Throws e => Raise e
     end,
     {| sent := sent w ++ [(req, d)];
        debug_log :=
          debug_log w ++
          (if trace
           then LogRequest http_type (url req) d :: reply_lines (urlopen req d)
           else []) |}).
Proof.
  unfold expected_request, request_url. rewrite <- strip_code_eq.
  run_py.
  destruct trace; simpl;
    (destruct (urlopen _ d) as [code body|[]]; simpl;
     rewrite <- ?app_assoc, ?app_nil_r; reflexivity).
Qed.

(** The requests a call of the routine adds to the world. *)
Lemma send_sent urlopen self p http_type d headers trace w :
  sent (snd (_send_http_request urlopen self p http_type d headers trace w))
  = (sent w ++ match p with
               | EmptyString => []
               | String _ _ =>
                   [(expected_request self p http_type headers, d)]
               end)%list.
Proof.
  destruct p as [|c rest].
  - simpl. now rewrite app_nil_r.
  - rewrite send_run. reflexivity.
Qed.

(** A response value the routine returns comes from one of the three
    handled outcomes of the transport. *)
Lemma send_ok_cases urlopen self p http_type d headers trace w r :
  fst (_send_http_request urlopen self p http_type d headers trace w) = Ok r ->
  let o := urlopen (expected_request self p http_type headers) d in
  p <> "" /\
  ((exists code body,
      o = Returns code body /\ r = mkHttpResponseType code (Some body) None)
   \/ (exists code body,
         o = Throws (HTTPError code body)
         /\ r = mkHttpResponseType code None (Some body))
   \/ (exists str_e,
         o = Throws (URLError str_e)
         /\ r = mkHttpResponseType (-1) None (Some str_e))).
Proof.
  destruct p as [|c rest]; [discriminate|].
  rewrite send_run. simpl. intros H. split; [discriminate|].
  destruct (urlopen _ d) as [code body|[]]; inversion H; subst; eauto 6.
Qed.

(** The whole run of [execute] with an [HttpAgent] as argument, in terms
    of the run of the verb. *)
Lemma execute_agent_run urlopen op a trace w :
  execute urlopen op (PyHttpAgent a) trace w
  = (let op' := bound_by op (PyHttpAgent a) in
     match verb_call urlopen op a trace w with
     | (Ok r, w') =>
         let st := mkOperationStatus (_HttpAgent__status_class a) op' r in
         (Ok (op', st),
          if trace
          then {| sent := sent w';
                  debug_log := debug_log w' ++ [LogStatus st] |}
          else w')
     | (Raise e, w') => (Raise e, w')
     end).
Proof.
  unfold execute, bound_by, verb_call, _do_invoke. unfold bind at 1. simpl.
  destruct (truth (agent op)); simpl; unfold bind at 1; simpl;
    (destruct (op_class op); unfold bind at 1;
     match goal with |- context [match ?m with _ => _ end] =>
       match m with
       | post _ _ _ _ _ _ _ => destruct m as [[r|e] w']
       | delete _ _ _ _ _ _ _ => destruct m as [[r|e] w']
       end
     end; simpl; try destruct trace; reflexivity).
Qed.

(** ** More on the transmission routine *)

(** X1: on a non-empty path each verb hands exactly one request to the
    transport: [post] and [delete] with their method, the single header
    [Content-Type] set to the caller's content type, and the caller's
    payload; [get] with method GET, no header and no payload. *)
Theorem verbs_hand_over_one_request
  (urlopen : Request -> option string -> urlopen_outcome)
  (self : HttpAgent) (p content_type : string) (d : option string)
  (trace : bool) (w : world) :
  p <> "" ->
  new_requests (post urlopen self p d content_type trace) w
  = [({| url := request_url self p; get_method := "POST";
         req_headers := [("Content-Type", content_type)] |}, d)]
  /\ new_requests (delete urlopen self p d content_type trace) w
     = [({| url := request_url self p; get_method := "DELETE";
            req_headers := [("Content-Type", content_type)] |}, d)]
  /\ new_requests (get urlopen self p trace) w
     = [({| url := request_url self p; get_method := "GET";
            req_headers := [] |}, None)].
Proof.
  intros Hne. unfold new_requests, post, delete, get.
  rewrite !send_sent, !skipn_length_app.
  destruct p; [congruence|]. repeat split.
Qed.

Lemma verbs_hand_over_one_request_witness :
  new_requests
    (post mock_urlopen svc "/items" (Some "{a:1}") "text/plain" false)
    empty_world
  = [({| url := "http://svc.example.com:8080/items"; get_method := "POST";
         req_headers := [("Content-Type", "text/plain")] |}, Some "{a:1}")].
Proof.
  apply (verbs_hand_over_one_request mock_urlopen svc "/items" "text/plain"
           (Some "{a:1}") false empty_world).
  discriminate.
Defined.

(** X2: a path that begins with a slash always reaches the transport,
    whatever follows the slash: the request URL is
    [{protocol}://{address}/] followed by the rest of the path as it is,
    also when the rest is empty or begins with another slash. *)
Theorem slash_prefixed_path_reaches_transport
  (urlopen : Request -> option string -> urlopen_outcome)
  (self : HttpAgent) (rest http_type : string) (d : option string)
  (headers : option (list (string * string))) (trace : bool) (w : world) :
  map (fun s => url (fst s))
    (new_requests
       (_send_http_request urlopen self ("/" ++ rest) http_type d headers
          trace) w)
  = [_protocol self ++ "://" ++ _address self ++ "/" ++ rest].
Proof.
  change ("/" ++ rest) with (String "/" rest).
  unfold new_requests. rewrite send_sent, skipn_length_app. reflexivity.
Qed.

(** X3: for one agent and two non-empty paths, the requests go to the
    same URL exactly when the paths are equal once a leading slash is
    taken off each. *)
Theorem same_url_iff_same_stripped_path
  (urlopen : Request -> option string -> urlopen_outcome)
  (self : HttpAgent) (p1 p2 http_type : string) (d : option string)
  (headers : option (list (string * string))) (trace : bool) (w : world) :
  p1 <> "" -> p2 <> "" ->
  (map (fun s => url (fst s))
     (new_requests
        (_send_http_request urlopen self p1 http_type d headers trace) w)
   = map (fun s => url (fst s))
       (new_requests
          (_send_http_request urlopen self p2 http_type d headers trace) w)
   <-> strip_one_leading_slash p1 = strip_one_leading_slash p2).
Proof.
  intros H1 H2. unfold new_requests. rewrite !send_sent, !skipn_length_app.
  destruct p1 as [|c1 r1]; [congruence|].
  destruct p2 as [|c2 r2]; [congruence|].
  cbn [map fst url expected_request]. unfold request_url.
  generalize (strip_one_leading_slash (String c1 r1)) as s1.
  generalize (strip_one_leading_slash (String c2 r2)) as s2.
  intros s2 s1. split.
  - intros H. injection H as Hurl.
    apply append_cancel_l in Hurl.
    apply (append_cancel_l "://") in Hurl.
    apply append_cancel_l in Hurl.
    apply (append_cancel_l "/") in Hurl. exact Hurl.
  - intros ->. reflexivity.
Qed.

Lemma same_url_iff_same_stripped_path_witness :
  map (fun s => url (fst s))
    (new_requests
       (_send_http_request mock_urlopen svc "/items/7" "GET" None None true)
       empty_world)
  = map (fun s => url (fst s))
      (new_requests
         (_send_http_request mock_urlopen svc "items/7" "GET" None None true)
         empty_world).
Proof.
  apply (same_url_iff_same_stripped_path mock_urlopen svc "/items/7"
           "items/7" "GET" None None true empty_world).
  - discriminate.
  - discriminate.
  - reflexivity.
Defined.

(** X4: the transmission routine raises in two cases only: [IndexError]
    on the empty path, and, on a non-empty path, the exception of the
    transport when that is neither an [HTTPError] nor a [URLError]; such
    an exception reaches the caller unchanged. *)
Theorem send_raises_iff
  (urlopen : Request -> option string -> urlopen_outcome)
  (self : HttpAgent) (p http_type : string) (d : option string)
  (headers : option (list (string * string))) (trace : bool) (w : world)
  (e : exception) :
  fst (_send_http_request urlopen self p http_type d headers trace w)
  = Raise e
  <-> (p = "" /\ e = IndexError "string index out of range")
      \/ (p <> ""
          /\ urlopen (expected_request self p http_type headers) d = Throws e
          /\ caught e = false).
Proof.
  destruct p as [|c rest].
  - simpl. split.
    + intros H. inversion H. left. split; reflexivity.
    + intros [[_ ->]|[Hne _]]; [reflexivity|congruence].
  - rewrite send_run. cbn [fst]. split.
    + intros H. right. split; [discriminate|].
      destruct (urlopen _ d) as [code body|[]]; inversion H; subst;
        split; reflexivity.
    + intros [[Hp _]|[_ [-> Hc]]]; [discriminate|].
      destruct e; simpl in Hc; try discriminate; reflexivity.
Qed.

Lemma send_raises_iff_witness :
  fst (_send_http_request timeout_urlopen svc "/items" "GET" None None true
         empty_world)
  = Raise (OtherException "socket.timeout").
Proof.
  apply (send_raises_iff timeout_urlopen svc "/items" "GET" None None true
           empty_world (OtherException "socket.timeout")).
  right. split; [discriminate|]. split; reflexivity.
Defined.

(** X5: over any transport at all, a response value the routine returns
    has exactly one of [output] and [error] set, and [output] is the one
    set exactly when [urlopen] returned a response: the routine sorts by
    whether an exception was raised and never looks at the code. *)
Theorem response_slots_over_any_transport
  (urlopen : Request -> option string -> urlopen_outcome)
  (self : HttpAgent) (p http_type : string) (d : option string)
  (headers : option (list (string * string))) (trace : bool) (w : world)
  (r : HttpResponseType) :
  fst (_send_http_request urlopen self p http_type d headers trace w) = Ok r ->
  xorb (populated (output r)) (populated (error r)) = true
  /\ (populated (output r) = true
      <-> exists body,
            urlopen (expected_request self p http_type headers) d
            = Returns (retcode r) body).
Proof.
  intros H. apply send_ok_cases in H. destruct H as [_ H].
  destruct H as [(code & body & Ho & ->)|[(code & body & Ho & ->)
                                         |(str_e & Ho & ->)]];
    simpl; (split; [reflexivity|]); rewrite Ho; split;
    try discriminate; eauto.
  - intros [b Hb]. discriminate.
  - intros [b Hb]. discriminate.
Qed.

Lemma response_slots_over_any_transport_witness :
  xorb (populated None) (populated (Some "")) = true
  /\ (populated None = true
      <-> exists body,
            gone_urlopen (expected_request svc "/items/7" "DELETE" None)
              (Some "")
            = Returns 410 body).
Proof.
  apply (response_slots_over_any_transport gone_urlopen svc "/items/7"
           "DELETE" (Some "") None true empty_world
           (mkHttpResponseType 410 None (Some ""))).
  reflexivity.
Defined.



(** ** More on [execute] *)

Lemma verb_call_sent urlopen op a trace w :
  sent (snd (verb_call urlopen op a trace w))
  = (sent w ++
     match path op with
     | EmptyString => []
     | String _ _ =>
         [({| url := request_url a (path op);
              get_method := method_of (op_class op);
              req_headers := [("Content-Type", "application/json")] |},
           data op)]
     end)%list.
Proof.
  unfold verb_call, post, delete.
  destruct (op_class op); rewrite send_sent; reflexivity.
Qed.

(** The result of a verb does not depend on the world it starts in. *)
Lemma verb_call_fst urlopen op a trace w w0 :
  fst (verb_call urlopen op a trace w) = fst (verb_call urlopen op a trace w0).
Proof.
  unfold verb_call, post, delete.
  destruct (op_class op), (path op) as [|c rest];
    try reflexivity; rewrite !send_run; reflexivity.
Qed.

Lemma execute_agent_sent urlopen op a trace w :
  sent (snd (execute urlopen op (PyHttpAgent a) trace w))
  = sent (snd (verb_call urlopen op a trace w)).
Proof.
  rewrite execute_agent_run. cbv zeta.
  destruct (verb_call urlopen op a trace w) as [[r|e] w'];
    [destruct trace|]; reflexivity.
Qed.

Lemma execute_agent_fst urlopen op a trace w :
  fst (execute urlopen op (PyHttpAgent a) trace w)
  = match fst (verb_call urlopen op a trace w) with
    | Ok r =>
        Ok (bound_by op (PyHttpAgent a),
            mkOperationStatus (_HttpAgent__status_class a)
              (bound_by op (PyHttpAgent a)) r)
    | Raise e => Raise e
    end.
Proof.
  rewrite execute_agent_run. cbv zeta.
  destruct (verb_call urlopen op a trace w) as [[r|e] w']; reflexivity.
Qed.

(** With an argument that is not an [HttpAgent], [execute] raises and
    leaves the world as it was. *)
Lemma execute_non_agent_raises urlopen op o trace w :
  isinstance_HttpAgent o = false ->
  exists e, execute urlopen op o trace w = (Raise e, w).
Proof.
  intros Hnot. unfold execute, _do_invoke, bind, raise, ret.
  destruct (truth (agent op)); simpl; rewrite ?Hnot; simpl;
    destruct o; try discriminate; eexists; reflexivity.
Qed.

(** X7: on a non-empty path, [execute] with an [HttpAgent] as argument
    hands exactly one request to the transport, whether or not the
    operation was bound: to the URL of the argument agent, with method
    POST for a post operation and DELETE for a delete operation, the
    single header [Content-Type: application/json], and the operation's
    data as payload. *)
Theorem execute_issues_the_operation_request
  (urlopen : Request -> option string -> urlopen_outcome)
  (op : Operation) (a : HttpAgent) (trace : bool) (w : world) :
  path op <> "" ->
  new_requests (execute urlopen op (PyHttpAgent a) trace) w
  = [({| url := request_url a (path op);
         get_method := method_of (op_class op);
         req_headers := [("Content-Type", "application/json")] |},
      data op)].
Proof.
  intros Hne. unfold new_requests.
  rewrite execute_agent_sent, verb_call_sent, skipn_length_app.
  destruct (path op); [congruence|reflexivity].
Qed.

Lemma execute_issues_the_operation_request_witness :
  new_requests
    (execute mock_urlopen
       (mkOperation HttpDeleteOperation "cleanup" PyNone "/items/7"
          (Some "") (Some HttpOperationStatus))
       (PyHttpAgent svc) true) empty_world
  = [({| url := "http://svc.example.com:8080/items/7";
         get_method := "DELETE";
         req_headers := [("Content-Type", "application/json")] |},
      Some "")].
Proof.
  apply (execute_issues_the_operation_request mock_urlopen
           (mkOperation HttpDeleteOperation "cleanup" PyNone "/items/7"
              (Some "") (Some HttpOperationStatus))
           svc true empty_world).
  discriminate.
Defined.

(** X8: when [execute] with an [HttpAgent] as argument returns, the
    operation is bound, to the agent it had before if it had one and to
    the argument otherwise; the status refers to that operation and
    holds the response of the verb; and executing the operation again
    with the same argument leaves it as it is and returns an equal
    status. *)
Theorem execute_binds_once
  (urlopen : Request -> option string -> urlopen_outcome)
  (op : Operation) (a : HttpAgent) (trace : bool) (w : world)
  (op' : Operation) (st : OperationStatus) :
  fst (execute urlopen op (PyHttpAgent a) trace w) = Ok (op', st) ->
  op' = (if truth (agent op) then op else bind_agent op (PyHttpAgent a))
  /\ truth (agent op') = true
  /\ operation st = op'
  /\ fst (verb_call urlopen op a trace w) = Ok (_http_response st)
  /\ fst (execute urlopen op' (PyHttpAgent a) trace
            (snd (execute urlopen op (PyHttpAgent a) trace w)))
     = Ok (op', st).
Proof.
  intros H. rewrite execute_agent_fst in H.
  destruct (fst (verb_call urlopen op a trace w)) as [r|e] eqn:Hv;
    [|discriminate].
  inversion H; subst op' st. clear H.
  assert (Hb : truth (agent (bound_by op (PyHttpAgent a))) = true).
  { unfold bound_by. destruct (truth (agent op)) eqn:E; [exact E|].
    reflexivity. }
  split; [reflexivity|]. split; [exact Hb|]. split; [reflexivity|].
  split; [reflexivity|].
  rewrite execute_agent_fst.
  assert (Hsame : forall w1,
    fst (verb_call urlopen (bound_by op (PyHttpAgent a)) a trace w1)
    = Ok r).
  { intros w1. rewrite (verb_call_fst _ _ _ _ w1 w).
    rewrite <- Hv. unfold bound_by.
    destruct (truth (agent op)); reflexivity. }
  rewrite Hsame.
  assert (Hkeep : forall op1 o1,
    truth (agent op1) = true -> bound_by op1 o1 = op1).
  { intros op1 o1 H1. unfold bound_by. rewrite H1. reflexivity. }
  rewrite (Hkeep _ _ Hb). reflexivity.
Qed.

Lemma execute_binds_once_witness :
  let op := mkOperation HttpPostOperation "create" PyNone "/items"
              (Some "{a:1}") None in
  let op' := mkOperation HttpPostOperation "create" (PyHttpAgent svc)
               "/items" (Some "{a:1}") None in
  let st := mkOperationStatus HttpOperationStatus op'
              (mkHttpResponseType 201 (Some "{id:7}") None) in
  op' = bind_agent op (PyHttpAgent svc)
  /\ truth (agent op') = true
  /\ operation st = op'
  /\ fst (verb_call mock_urlopen op svc true empty_world)
     = Ok (_http_response st)
  /\ fst (execute mock_urlopen op' (PyHttpAgent svc) true
            (snd (execute mock_urlopen op (PyHttpAgent svc) true
                    empty_world)))
     = Ok (op', st).
Proof.
  intros op op' st.
  apply (execute_binds_once mock_urlopen op svc true empty_world op' st).
  reflexivity.
Defined.

(** X9: whatever the operation and the argument, [execute] only adds to
    the requests already sent, and it adds exactly one when the argument
    is an [HttpAgent] and the path is not empty, and none otherwise. *)
Theorem execute_sends_at_most_one_request
  (urlopen : Request -> option string -> urlopen_outcome)
  (op : Operation) (o : pyobj) (trace : bool) (w : world) :
  sent (snd (execute urlopen op o trace w))
  = (sent w ++ new_requests (execute urlopen op o trace) w)%list
  /\ length (new_requests (execute urlopen op o trace) w)
     = (if isinstance_HttpAgent o && negb (String.eqb (path op) "")
        then 1 else 0)%nat.
Proof.
  unfold new_requests. destruct o as [|a|n t].
  - destruct (execute_non_agent_raises urlopen op PyNone trace w eq_refl)
      as [e ->].
    simpl. rewrite skipn_all, app_nil_r. split; reflexivity.
  - rewrite execute_agent_sent, verb_call_sent, skipn_length_app.
    split; [reflexivity|]. destruct (path op); reflexivity.
  - destruct (execute_non_agent_raises urlopen op (PyObject n t) trace w
                eq_refl) as [e ->].
    simpl. rewrite skipn_all, app_nil_r. split; reflexivity.
Qed.





(** ** The report of a transmission result *)

(** X11: the report parts of a response value the routine returned are
    the code and one data part.  For a returned reply the data part is
    [Response Data] with the body; for an error reply or a failure with a
    non-empty text it is [Response Error] with that text; for an error
    reply or a failure whose text is empty it is [Response Data] with
    [None]. *)
Theorem report_of_transmission_result
  (Part : Type) (build_part : string -> Z -> Part)
  (build_json_part : string -> option string -> Part)
  (urlopen : Request -> option string -> urlopen_outcome)
  (self : HttpAgent) (p http_type : string) (d : option string)
  (headers : option (list (string * string))) (trace : bool) (w : world)
  (r : HttpResponseType) :
  fst (_send_http_request urlopen self p http_type d headers trace w) = Ok r ->
  let o := urlopen (expected_request self p http_type headers) d in
  let parts :=
    HttpResponseType_make_scribe_parts build_part build_json_part r in
  (forall code body, o = Returns code body ->
     parts = [build_part "HTTP Code" code;
              build_json_part "Response Data" (Some body)])
  /\ (forall code body, o = Throws (HTTPError code body) -> body <> "" ->
        parts = [build_part "HTTP Code" code;
                 build_json_part "Response Error" (Some body)])
  /\ (forall code, o = Throws (HTTPError code "") ->
        parts = [build_part "HTTP Code" code;
                 build_json_part "Response Data" None])
  /\ (forall str_e, o = Throws (URLError str_e) -> str_e <> "" ->
        parts = [build_part "HTTP Code" (-1);
                 build_json_part "Response Error" (Some str_e)])
  /\ (o = Throws (URLError "") ->
      parts = [build_part "HTTP Code" (-1);
               build_json_part "Response Data" None]).
Proof.
  intros H o parts. apply send_ok_cases in H. destruct H as [_ H].
  fold o in H. subst parts.
  destruct H as [(code & body & Ho & ->)|[(code & body & Ho & ->)
                                         |(str_e & Ho & ->)]];
    rewrite Ho; (repeat split); intros; try discriminate;
    match goal with
    | E : _ = _ |- _ => inversion E; subst; clear E
    end;
    try reflexivity;
    match goal with
    | Hne : ?s <> "" |- _ => destruct s; [congruence|reflexivity]
    end.
Qed.

Lemma report_of_transmission_result_witness :
  HttpResponseType_make_scribe_parts record_part record_json_part
    (mkHttpResponseType 410 None (Some ""))
  = [("HTTP Code", inl 410); ("Response Data", inr None)].
Proof.
  destruct (report_of_transmission_result recorded_part record_part
              record_json_part gone_urlopen svc "/items/7" "DELETE"
              (Some "") None true empty_world
              (mkHttpResponseType 410 None (Some "")))
    as (_ & _ & Hempty & _).
  - reflexivity.
  - apply (Hempty 410). reflexivity.
Defined.

(** ** The agent's constructor, the empty path and the debug log *)

(** X12: an agent built without a protocol sends to
    [http://{address}/...]; one built with a protocol sends to
    [{protocol}://{address}/...]. *)
Theorem constructed_agent_url
  (urlopen : Request -> option string -> urlopen_outcome)
  (address p : string) (protocol : option string) (trace : bool)
  (w : world) :
  p <> "" ->
  map (fun s => url (fst s))
    (new_requests (get urlopen (HttpAgent__init__ address protocol) p trace)
       w)
  = [match protocol with Some scheme => scheme | None => "http" end
     ++ "://" ++ address ++ "/" ++ strip_one_leading_slash p].
Proof.
  intros Hne. unfold new_requests, get.
  rewrite send_sent, skipn_length_app.
  destruct p; [congruence|reflexivity].
Qed.

Lemma constructed_agent_url_witness :
  map (fun s => url (fst s))
    (new_requests
       (get mock_urlopen (HttpAgent__init__ "localhost:8084" (Some "https"))
          "/health" false) empty_world)
  = ["https://localhost:8084/health"].
Proof.
  apply (constructed_agent_url mock_urlopen "localhost:8084" "/health"
           (Some "https") false empty_world).
  discriminate.
Defined.

(** X13: executing an operation whose path is empty with an [HttpAgent]
    as argument raises [IndexError]; no request is sent and no debug line
    is written. *)
Theorem execute_empty_path_raises_IndexError
  (urlopen : Request -> option string -> urlopen_outcome)
  (op : Operation) (a : HttpAgent) (trace : bool) (w : world) :
  path op = "" ->
  execute urlopen op (PyHttpAgent a) trace w
  = (Raise (IndexError "string index out of range"), w).
Proof.
  intros Hp. rewrite execute_agent_run. unfold verb_call, post, delete.
  rewrite Hp. destruct (op_class op); reflexivity.
Qed.

Lemma execute_empty_path_raises_IndexError_witness :
  execute mock_urlopen
    (mkOperation HttpPostOperation "create" (PyHttpAgent svc) ""
       (Some "{a:1}") None)
    (PyHttpAgent svc) true empty_world
  = (Raise (IndexError "string index out of range"), empty_world).
Proof.
  apply (execute_empty_path_raises_IndexError mock_urlopen
           (mkOperation HttpPostOperation "create" (PyHttpAgent svc) ""
              (Some "{a:1}") None)
           svc true empty_world).
  reflexivity.
Defined.



